(** * aspy: a session client for the ArchivesSpace HTTP API

    Shallow embedding of [aspy.py] (class [aspaceRepo]) and the properties
    of its five methods.

    - Python values are the float-free JSON fragment ([pyval]); a [str] is a
      [string] whose characters are read as code points below 256; a [dict]
      is an association list in insertion order.
    - A method is a computation over the instance's attributes and the
      outside world (requests sent, records logged).  A raised exception
      keeps the state reached so far, as in Python.
    - The remote service and the HTTP transport are an oracle [remote] that
      decides, from the requests seen so far, what [requests.post] does. *)

From Stdlib Require Import String Ascii List ZArith Bool Lia DecimalString.
Import ListNotations.
Open Scope string_scope.
Set Warnings "-register-all".

(** ** Python values and exceptions *)

Module Py.

Inductive pyval : Type :=
| PNone
| PBool (b : bool)
| PInt (z : Z)
| PStr (s : string)
| PList (l : list pyval)
| PDict (d : list (string * pyval)).

(** What [requests.post] can raise: [requests.exceptions.ConnectionError]
    (with its subclasses), or another exception of the library, kept by
    name. *)
Inductive requests_exn : Type :=
| RequestsConnectionError
| RequestsOther (name : string).

(** Exceptions the module can raise.  [ConnectionError] is the class the
    module declares itself; the others come from Python and its libraries. *)
Inductive exn : Type :=
| ConnectionError
| RequestException (e : requests_exn)
| JSONDecodeError
| TypeError
| KeyError (key : string)
| ValueError
| AttributeError (name : string).

Definition result (A : Type) : Type := (exn + A)%type.

(** [x is not None] *)
Definition is_not_None (v : pyval) : bool :=
  match v with
  | PNone => false
  | _ => true
  end.

Fixpoint dict_get (d : list (string * pyval)) (k : string) : option pyval :=
  match d with
  | [] => None
  | (k', v) :: d' => if String.eqb k' k then Some v else dict_get d' k
  end.

(** [v[k]] for a string key [k]: only a dict can be subscripted by a
    string; a missing key is a [KeyError], anything else a [TypeError]. *)
Definition getitem (v : pyval) (k : string) : result pyval :=
  match v with
  | PDict d =>
      match dict_get d k with
      | Some x => inr x
      | None => inl (KeyError k)
      end
  | _ => inl TypeError
  end.

(** [str(n)] for an int. *)
Definition str_int (z : Z) : string := NilZero.string_of_int (Z.to_int z).

End Py.
Import Py.

(** ** string.Template *)

Module Template.

Definition in_range (lo hi : nat) (c : ascii) : bool :=
  let n := nat_of_ascii c in (lo <=? n)%nat && (n <=? hi)%nat.

(** [[_a-z]] under [re.IGNORECASE], ASCII only. *)
Definition is_id_start (c : ascii) : bool :=
  Ascii.eqb c "_" || in_range 97 122 c || in_range 65 90 c.

(** [[_a-z0-9]] under [re.IGNORECASE], ASCII only. *)
Definition is_id_char (c : ascii) : bool :=
  is_id_start c || in_range 48 57 c.

Definition delimiter : ascii := "$".

(** Where the scanner is inside the template. *)
Inductive tstate : Type :=
| Text
| Delim
| Named (id : string)
| BraceOpen
| Braced (id : string).

Fixpoint lookup (mapping : list (string * string)) (id : string)
  : result string :=
  match mapping with
  | [] => inl (KeyError id)
  | (k, v) :: m => if String.eqb k id then inr v else lookup m id
  end.

Definition snoc (s : string) (c : ascii) : string := s ++ String c "".

Definition prepend (s : string) (r : result string) : result string :=
  match r with
  | inl e => inl e
  | inr t => inr (s ++ t)
  end.

Definition then_ (r : result string) (k : result string) : result string :=
  match r with
  | inl e => inl e
  | inr s => prepend s k
  end.

(** One pass over the template, left to right: [$$] is a literal
    delimiter, [$id] and [${id}] are replaced by the mapping's value, any
    other use of the delimiter is a [ValueError], a name the mapping lacks
    a [KeyError].  Replacement text is not scanned again. *)
Fixpoint scan (mapping : list (string * string)) (st : tstate) (t : string)
  : result string :=
  match t with
  | EmptyString =>
      match st with
      | Text => inr ""
      | Named id => lookup mapping id
      | Delim | BraceOpen | Braced _ => inl ValueError
      end
  | String c t' =>
      match st with
      | Text =>
          if Ascii.eqb c delimiter then scan mapping Delim t'
          else prepend (String c "") (scan mapping Text t')
      | Delim =>
          if Ascii.eqb c delimiter
          then prepend (String delimiter "") (scan mapping Text t')
          else if is_id_start c then scan mapping (Named (String c "")) t'
          else if Ascii.eqb c "{" then scan mapping BraceOpen t'
          else inl ValueError
      | Named id =>
          if is_id_char c then scan mapping (Named (snoc id c)) t'
          else then_ (lookup mapping id)
                 (if Ascii.eqb c delimiter then scan mapping Delim t'
                  else prepend (String c "") (scan mapping Text t'))
      | BraceOpen =>
          if is_id_start c then scan mapping (Braced (String c "")) t'
          else inl ValueError
      | Braced id =>
          if is_id_char c then scan mapping (Braced (snoc id c)) t'
          else if Ascii.eqb c "}"
               then then_ (lookup mapping id) (scan mapping Text t')
               else inl ValueError
      end
  end.

(** [Template(template).substitute] with the mapping given as keyword
    arguments. *)
Definition substitute (template : string) (mapping : list (string * string))
  : result string :=
  scan mapping Text template.

End Template.

(** ** json.dumps *)

Module Json.

Definition dquote : ascii := "034"%char.
Definition backslash : ascii := "\"%char.

Definition hex_digit (n : nat) : ascii :=
  if (n <? 10)%nat then ascii_of_nat (48 + n) else ascii_of_nat (87 + n).

(** The replacement of one character under [ensure_ascii=True]: the quote
    and the backslash are escaped, printable ASCII is kept, the five
    control characters have a short form and everything else is written
    as a four-digit lowercase hexadecimal escape. *)
Definition escape_char (c : ascii) : string :=
  let n := nat_of_ascii c in
  if Ascii.eqb c dquote then String backslash (String dquote "")
  else if Ascii.eqb c backslash then String backslash (String backslash "")
  else if Template.in_range 32 126 c then String c ""
  else if (n =? 8)%nat then String backslash "b"
  else if (n =? 9)%nat then String backslash "t"
  else if (n =? 10)%nat then String backslash "n"
  else if (n =? 12)%nat then String backslash "f"
  else if (n =? 13)%nat then String backslash "r"
  else String backslash
         ("u00" ++ String (hex_digit (n / 16)) (String (hex_digit (n mod 16)) "")).

Fixpoint escape (s : string) : string :=
  match s with
  | EmptyString => ""
  | String c s' => escape_char c ++ escape s'
  end.

Definition encode_str (s : string) : string :=
  String dquote (escape s ++ String dquote "").

Fixpoint join (sep : string) (l : list string) : string :=
  match l with
  | [] => ""
  | [x] => x
  | x :: l' => x ++ sep ++ join sep l'
  end.

(** [json.dumps(v)] with the default separators [", "] and [": "]. *)
Fixpoint dumps (v : pyval) : string :=
  match v with
  | PNone => "null"
  | PBool true => "true"
  | PBool false => "false"
  | PInt z => str_int z
  | PStr s => encode_str s
  | PList l => "[" ++ join ", " (map dumps l) ++ "]"
  | PDict d =>
      "{" ++ join ", "
               (map (fun kv => encode_str (fst kv) ++ ": " ++ dumps (snd kv)) d)
          ++ "}"
  end.

End Json.

(** ** The client *)

Module Aspy.

(** An instance of [aspaceRepo].  [connection = None] is the attribute
    not existing on the instance. *)
Record aspaceRepo : Type := mkRepo {
  protocol : string;
  domain : string;
  port : string;
  username : string;
  password : string;
  sessionId : pyval;
  connection : option pyval
}.

(** The arguments of one [requests.post] call. *)
Record Request : Type := mkRequest {
  url : string;
  data : pyval;
  headers : pyval
}.

(** What the code reads of a response: [r.status_code], [r.text], and
    [r.json()], which is [None] here when the body does not decode. *)
Record Response : Type := mkResponse {
  status_code : Z;
  text : string;
  json : option pyval
}.

Inductive Outcome : Type :=
| Responded (r : Response)
| Failed (e : requests_exn).

Record World : Type := mkWorld {
  sent : list Request;
  log : list string
}.

Record State : Type := mkState {
  self : aspaceRepo;
  world : World
}.

Definition M (A : Type) : Type := State -> result A * State.

Definition ret {A} (a : A) : M A := fun st => (inr a, st).

Definition raise {A} (e : exn) : M A := fun st => (inl e, st).

Definition bind {A B} (c : M A) (k : A -> M B) : M B :=
  fun st =>
    match c st with
    | (inr a, st') => k a st'
    | (inl e, st') => (inl e, st')
    end.

Declare Scope py_scope.
Delimit Scope py_scope with py.
Notation "x <- c ;; k" := (bind c (fun x => k))
  (at level 100, c at next level, right associativity) : py_scope.
Notation "c ;; k" := (bind c (fun _ => k))
  (at level 100, right associativity) : py_scope.
Local Open Scope py_scope.

Definition lift {A} (r : result A) : M A := fun st => (r, st).

(** [try: body / except E: handler / else: orelse], where [catches] says
    which exceptions are instances of [E].  Exceptions of the handler and
    of the else clause are not caught. *)
Definition try_except_else {A B} (body : M A) (catches : exn -> bool)
    (handler : M B) (orelse : A -> M B) : M B :=
  fun st =>
    match body st with
    | (inr a, st') => orelse a st'
    | (inl e, st') => if catches e then handler st' else (inl e, st')
    end.

Definition get_self : M aspaceRepo := fun st => (inr (self st), st).

Definition set_sessionId (v : pyval) : M unit :=
  fun st =>
    let s := self st in
    (inr tt,
     mkState (mkRepo (protocol s) (domain s) (port s) (username s) (password s)
                v (connection s))
             (world st)).

Definition set_connection (v : pyval) : M unit :=
  fun st =>
    let s := self st in
    (inr tt,
     mkState (mkRepo (protocol s) (domain s) (port s) (username s) (password s)
                (sessionId s) (Some v))
             (world st)).

(** Reading [self.connection]. *)
Definition get_connection : M pyval :=
  fun st =>
    match connection (self st) with
    | Some v => (inr v, st)
    | None => (inl (AttributeError "connection"), st)
    end.

(** [logging.error(msg)] *)
Definition logging_error (msg : string) : M unit :=
  fun st =>
    (inr tt,
     mkState (self st) (mkWorld (sent (world st)) (log (world st) ++ [msg]))).

(** [except requests.exceptions.ConnectionError] *)
Definition is_requests_ConnectionError (e : exn) : bool :=
  match e with
  | RequestException RequestsConnectionError => true
  | _ => false
  end.

(** [except ConnectionError], the module's own class. *)
Definition is_ConnectionError (e : exn) : bool :=
  match e with
  | ConnectionError => true
  | _ => false
  end.

Section Methods.

(** What the transport and the remote service do with a request, given
    the requests made before it. *)
Variable remote : list Request -> Request -> Outcome.

(** [requests.post(url, data = data, headers = headers)] *)
Definition requests_post (u : string) (d h : pyval) : M Response :=
  fun st =>
    let req := mkRequest u d h in
    let st' :=
      mkState (self st)
              (mkWorld (sent (world st) ++ [req]) (log (world st))) in
    match remote (sent (world st)) req with
    | Responded r => (inr r, st')
    | Failed e => (inl (RequestException e), st')
    end.

(** [__init__] *)
Definition init (protocol domain port username password : string)
  : aspaceRepo :=
  mkRepo protocol domain port username password PNone None.

Definition getHost : M string :=
  s <- get_self ;;
  lift (Template.substitute "$protocol://$domain:$port"
          [("protocol", protocol s); ("domain", domain s); ("port", port s)]).

Definition requestPost (path : string) (data : pyval) : M pyval :=
  s <- get_self ;;
  let '(sessionHeader, data) :=
    if is_not_None (sessionId s)
    then (PDict [("X-ArchivesSpace-Session", sessionId s)],
          PStr (Json.dumps data))
    else (PStr "", data) in
  try_except_else
    (host <- getHost ;;
     requests_post (host ++ path) data sessionHeader)
    is_requests_ConnectionError
    (logging_error
       "Unable to connect to ArchivesSpace. Check the host information." ;;
     raise ConnectionError)
    (fun r =>
       if (status_code r =? 403)%Z then
         logging_error "Forbidden -- check your credentials." ;;
         logging_error (text r) ;;
         ret PNone
       else if (status_code r =? 400)%Z then
         logging_error "Bad Request -- Your request sucks." ;;
         logging_error (text r) ;;
         ret PNone
       else if (status_code r =? 200)%Z then
         match json r with
         | Some v => ret v
         | None => raise JSONDecodeError
         end
       else
         logging_error (str_int (status_code r)) ;;
         logging_error (text r) ;;
         ret PNone).

Definition connect : M pyval :=
  s <- get_self ;;
  path <- lift (Template.substitute "/users/$username/login"
                  [("username", username s)]) ;;
  s <- get_self ;;
  try_except_else
    (requestPost path (PDict [("password", PStr (password s))]))
    is_ConnectionError
    (logging_error "Couldn't authenticate." ;;
     ret PNone)
    (fun jsonResponse =>
       set_connection jsonResponse ;;
       tok <- lift (getitem jsonResponse "session") ;;
       set_sessionId tok ;;
       ret PNone).

Definition repositoriesPost (repo_code name : pyval) : M pyval :=
  jsonResponse <-
    requestPost "/repositories"
      (PDict [("jsonmodel_type", PStr "repository");
              ("repo_code", repo_code);
              ("name", name)]) ;;
  ret jsonResponse.

(** The literal of [subjectsPost]. *)
Definition subject_data : pyval :=
  PDict [("jsonmodel_type", PStr "subject");
         ("external_ids", PList []);
         ("publish", PBool true);
         ("used_within_repositories", PList []);
         ("used_within_published_repositories", PList []);
         ("terms", PList [PDict [("jsonmodel_type", PStr "term");
                                 ("term", PStr "Term 132");
                                 ("term_type", PStr "geographic");
                                 ("vocabulary", PStr "/vocabularies/156")]]);
         ("external_documents", PList []);
         ("vocabulary", PStr "/vocabularies/157");
         ("authority_id", PStr "http://www.example-596.com");
         ("scope_note", PStr "M911GA46");
         ("source", PStr "gmgpc")].

Definition subjectsPost : M pyval :=
  let data := subject_data in
  jsonResponse <- requestPost "/subjects" (PStr (Json.dumps data)) ;;
  ret jsonResponse.

(** A call a user of the class can make on an instance. *)
Inductive call : Type :=
| CallGetHost
| CallConnect
| CallRequestPost (path : string) (data : pyval)
| CallRepositoriesPost (repo_code name : pyval)
| CallSubjectsPost.

Definition run_call (c : call) : M pyval :=
  match c with
  | CallGetHost => h <- getHost ;; ret (PStr h)
  | CallConnect => connect
  | CallRequestPost path data => requestPost path data
  | CallRepositoriesPost repo_code name => repositoriesPost repo_code name
  | CallSubjectsPost => subjectsPost
  end.

(** A caller that makes the calls one after the other and goes on after
    an exception. *)
Fixpoint run_calls (cs : list call) (st : State) : State :=
  match cs with
  | [] => st
  | c :: cs' => run_calls cs' (snd (run_call c st))
  end.

End Methods.

End Aspy.
Import Aspy.

(** ** Vocabulary of the statements *)

(** The base URL of an instance, as the documentation of [getHost] gives
    it: protocol, domain name and port. *)
Definition host_string (s : aspaceRepo) : string :=
  protocol s ++ "://" ++ domain s ++ ":" ++ port s.

Definition session_header : string := "X-ArchivesSpace-Session".

(** The request [requestPost] hands to the transport for a path and a
    payload, in the two session states. *)
Definition outgoing (s : aspaceRepo) (path : string) (payload : pyval)
  : Request :=
  match sessionId s with
  | PNone => mkRequest (host_string s ++ path) payload (PStr "")
  | tok =>
      mkRequest (host_string s ++ path) (PStr (Json.dumps payload))
        (PDict [(session_header, tok)])
  end.

(** The first of the two records logged for a response that is not a 200. *)
Definition diagnostic (r : Response) : string :=
  if (status_code r =? 403)%Z then "Forbidden -- check your credentials."
  else if (status_code r =? 400)%Z then "Bad Request -- Your request sucks."
  else str_int (status_code r).

Definition with_sent (st : State) (req : Request) : World :=
  mkWorld (sent (world st) ++ [req]) (log (world st)).

Definition logged (w : World) (msgs : list string) : World :=
  mkWorld (sent w) (log w ++ msgs).

Definition login_path (s : aspaceRepo) : string :=
  "/users/" ++ username s ++ "/login".

Definition login_payload (s : aspaceRepo) : pyval :=
  PDict [("password", PStr (password s))].

Definition repository_payload (repo_code name : pyval) : pyval :=
  PDict [("jsonmodel_type", PStr "repository");
         ("repo_code", repo_code);
         ("name", name)].

(** The instance after [connect] has stored a response, without and with
    a token taken from it. *)
Definition with_connection (s : aspaceRepo) (v : pyval) : aspaceRepo :=
  mkRepo (protocol s) (domain s) (port s) (username s) (password s)
    (sessionId s) (Some v).

Definition with_session (s : aspaceRepo) (tok v : pyval) : aspaceRepo :=
  mkRepo (protocol s) (domain s) (port s) (username s) (password s)
    tok (Some v).

(** Two instances hold the same five connection parameters. *)
Definition same_parameters (a b : aspaceRepo) : Prop :=
  protocol a = protocol b /\ domain a = domain b /\ port a = port b /\
  username a = username b /\ password a = password b.

(** A run of the doctest of the class: the client it constructs, and a
    service that accepts the login, one that refuses it, and a host that
    cannot be reached. *)
Definition fresh_client : State :=
  mkState (init "http" "localhost" "8089" "admin" "admin") (mkWorld [] []).

Definition login_body : pyval :=
  PDict [("session", PStr "abc123");
         ("user", PDict [("username", PStr "admin")])].

Definition login_ok : Response :=
  mkResponse 200 (Json.dumps login_body) (Some login_body).

Definition forbidden_body : pyval := PDict [("error", PStr "Login failed")].

Definition forbidden : Response :=
  mkResponse 403 (Json.dumps forbidden_body) (Some forbidden_body).

Definition accepting_remote : list Request -> Request -> Outcome :=
  fun _ _ => Responded login_ok.

Definition refusing_remote : list Request -> Request -> Outcome :=
  fun _ _ => Responded forbidden.

Definition unreachable_remote : list Request -> Request -> Outcome :=
  fun _ _ => Failed RequestsConnectionError.

(** The request the fresh client's [connect] makes. *)
Definition login_request : Request :=
  mkRequest "http://localhost:8089/users/admin/login"
    (PDict [("password", PStr "admin")]) (PStr "").

(** The same client once a login has given it the token ["abc123"]. *)
Definition logged_in_client : State :=
  mkState
    (mkRepo "http" "localhost" "8089" "admin" "admin" (PStr "abc123")
       (Some login_body))
    (mkWorld [] []).

(** [connection['user']['username']], as the doctest reads it. *)
Definition connection_username (s : aspaceRepo) : result pyval :=
  match connection s with
  | None => inl (AttributeError "connection")
  | Some c =>
      match getitem c "user" with
      | inl e => inl e
      | inr usr => getitem usr "username"
      end
  end.

(** ** The documented uses and further services *)

(** The calls that reach [requests.post]: all but [getHost]. *)
Definition makes_request (c : call) : bool :=
  match c with
  | CallGetHost => false
  | _ => true
  end.

(** The doctest of the class and of [connect], after the constructor:
    [repo.connect()], then [repo.connection['user']['username']]. *)
Definition class_doctest (remote : list Request -> Request -> Outcome)
  : M pyval :=
  bind (connect remote) (fun _ =>
  bind get_connection (fun c =>
  bind (lift (getitem c "user")) (fun usr =>
  lift (getitem usr "username")))).

(** The doctest of [repositoriesPost], after the login:
    [response = repo.repositoriesPost(code, name)], then [response['uri']]. *)
Definition repositories_doctest (remote : list Request -> Request -> Outcome)
    (repo_code name : pyval) : M pyval :=
  bind (repositoriesPost remote repo_code name) (fun response =>
  lift (getitem response "uri")).

(** A transport that times out, a 200 whose body is not JSON, and a 200
    whose JSON body has no ['session'] entry. *)
Definition timing_out_remote : list Request -> Request -> Outcome :=
  fun _ _ => Failed (RequestsOther "Timeout").

Definition undecodable : Response := mkResponse 200 "<html></html>" None.

Definition undecodable_remote : list Request -> Request -> Outcome :=
  fun _ _ => Responded undecodable.

Definition sessionless_body : pyval :=
  PDict [("user", PDict [("username", PStr "admin")])].

Definition sessionless : Response :=
  mkResponse 200 (Json.dumps sessionless_body) (Some sessionless_body).

Definition sessionless_remote : list Request -> Request -> Outcome :=
  fun _ _ => Responded sessionless.

(** ** The library models on small inputs *)

Example substitute_doctest_host :
  Template.substitute "$protocol://$domain:$port"
    [("protocol", "http"); ("domain", "localhost"); ("port", "8089")]
  = inr "http://localhost:8089".
Proof. reflexivity. Qed.

Example substitute_braced_and_escaped :
  Template.substitute "a$$b${x}c$x_1 d" [("x", "X"); ("x_1", "Y")]
  = inr "a$bXcY d".
Proof. reflexivity. Qed.

Example substitute_missing_name :
  Template.substitute "/users/$username/login" [] = inl (KeyError "username").
Proof. reflexivity. Qed.

Example substitute_dangling_delimiter :
  Template.substitute "100$" [] = inl ValueError.
Proof. reflexivity. Qed.

Example dumps_scalars_and_list :
  Json.dumps (PList [PInt 1; PInt (-20); PBool true; PNone; PList []])
  = "[1, -20, true, null, []]".
Proof. reflexivity. Qed.

Example dumps_dict_of_string :
  Json.dumps (PDict [("a", PStr "b\c")])
  = "{" ++ String Json.dquote "a" ++ String Json.dquote ": "
        ++ String Json.dquote "b\\c" ++ String Json.dquote "}".
Proof. reflexivity. Qed.

Example getitem_of_None : getitem PNone "session" = inl TypeError.
Proof. reflexivity. Qed.

(** ** Running the methods *)

Section Runs.

Variable remote : list Request -> Request -> Outcome.

Lemma getHost_run (st : State) :
  getHost st = (inr (host_string (self st)), st).
Proof. reflexivity. Qed.

(** What one call of [requestPost] does, by the transport's answer. *)
Lemma requestPost_run (path : string) (payload : pyval) (st : State) :
  requestPost remote path payload st =
  let req := outgoing (self st) path payload in
  let w := with_sent st req in
  match remote (sent (world st)) req with
  | Failed RequestsConnectionError =>
      (inl ConnectionError,
       mkState (self st)
         (logged w
            ["Unable to connect to ArchivesSpace. Check the host information."]))
  | Failed (RequestsOther name) =>
      (inl (RequestException (RequestsOther name)), mkState (self st) w)
  | Responded r =>
      if (status_code r =? 200)%Z then
        match json r with
        | Some v => (inr v, mkState (self st) w)
        | None => (inl JSONDecodeError, mkState (self st) w)
        end
      else
        (inr PNone, mkState (self st) (logged w [diagnostic r; text r]))
  end.
Proof.
  unfold requestPost, outgoing, session_header, bind at 1, get_self.
  destruct (sessionId (self st)) eqn:Htok; cbn [is_not_None];
    unfold try_except_else, bind at 1; rewrite getHost_run;
    unfold requests_post; cbn [self world sent log];
    match goal with
    | |- context [remote ?h ?q] => destruct (remote h q) as [r | [ | name]]
    end; cbn; try reflexivity;
    unfold diagnostic;
    repeat match goal with
      | |- context [(status_code ?x =? ?k)%Z] =>
          let e := fresh "E" in
          destruct (Z.eqb_spec (status_code x) k) as [e | ?];
          [try rewrite e; cbn | ]
      end;
    unfold logged, with_sent, ret, raise; cbn; rewrite <- ?app_assoc;
    try reflexivity;
    match goal with
    | |- context [json ?x] => destruct (json x); reflexivity
    end.
Qed.

Lemma requestPost_200 (path : string) (payload : pyval) (st : State)
    (r : Response) (v : pyval) :
  remote (sent (world st)) (outgoing (self st) path payload) = Responded r ->
  status_code r = 200%Z ->
  json r = Some v ->
  requestPost remote path payload st =
  (inr v, mkState (self st) (with_sent st (outgoing (self st) path payload))).
Proof.
  intros Hr H200 Hv. rewrite requestPost_run. cbv zeta.
  rewrite Hr, H200, Hv. reflexivity.
Qed.

Lemma requestPost_not_200 (path : string) (payload : pyval) (st : State)
    (r : Response) :
  remote (sent (world st)) (outgoing (self st) path payload) = Responded r ->
  status_code r <> 200%Z ->
  requestPost remote path payload st =
  (inr PNone,
   mkState (self st)
     (logged (with_sent st (outgoing (self st) path payload))
        [diagnostic r; text r])).
Proof.
  intros Hr Hne. rewrite requestPost_run. cbv zeta. rewrite Hr.
  destruct (Z.eqb_spec (status_code r) 200); [contradiction | reflexivity].
Qed.

Lemma requestPost_self (path : string) (payload : pyval) (st : State) :
  self (snd (requestPost remote path payload st)) = self st.
Proof.
  rewrite requestPost_run; cbv zeta.
  destruct (remote _ _) as [r | [ | name]]; try reflexivity.
  destruct (status_code r =? 200)%Z; [destruct (json r) | ]; reflexivity.
Qed.

Lemma requestPost_sent (path : string) (payload : pyval) (st : State) :
  sent (world (snd (requestPost remote path payload st))) =
  (sent (world st) ++ [outgoing (self st) path payload])%list.
Proof.
  rewrite requestPost_run; cbv zeta.
  destruct (remote _ _) as [r | [ | name]]; try reflexivity.
  destruct (status_code r =? 200)%Z; [destruct (json r) | ]; reflexivity.
Qed.

(** What one call of [connect] does, by the outcome of its [requestPost]. *)
Lemma connect_run (st : State) :
  connect remote st =
  match requestPost remote (login_path (self st)) (login_payload (self st)) st
  with
  | (inl ConnectionError, st') =>
      (inr PNone,
       mkState (self st') (logged (world st') ["Couldn't authenticate."]))
  | (inl e, st') => (inl e, st')
  | (inr j, st') =>
      match getitem j "session" with
      | inr tok => (inr PNone, mkState (with_session (self st') tok j) (world st'))
      | inl e => (inl e, mkState (with_connection (self st') j) (world st'))
      end
  end.
Proof.
  unfold connect, bind at 1, get_self.
  unfold bind at 1, lift.
  change (Template.substitute "/users/$username/login"
            [("username", username (self st))])
    with (@inr exn string (login_path (self st))).
  cbv iota beta. unfold bind at 1. cbn [self].
  unfold try_except_else, login_payload.
  destruct (requestPost remote _ _ st) as [[e | j] st'].
  - destruct e; reflexivity.
  - unfold bind, set_connection, lift, set_sessionId, ret; cbn.
    destruct (getitem j "session"); reflexivity.
Qed.

Lemma repositoriesPost_requestPost (repo_code name : pyval) (st : State) :
  repositoriesPost remote repo_code name st =
  requestPost remote "/repositories" (repository_payload repo_code name) st.
Proof.
  unfold repositoriesPost, bind, repository_payload, ret.
  destruct (requestPost remote _ _ st) as [[e | v] st']; reflexivity.
Qed.

Lemma subjectsPost_requestPost (st : State) :
  subjectsPost remote st =
  requestPost remote "/subjects" (PStr (Json.dumps subject_data)) st.
Proof.
  unfold subjectsPost, bind, ret.
  destruct (requestPost remote _ _ st) as [[e | v] st']; reflexivity.
Qed.

(** Only [connect] assigns to an attribute. *)
Lemma run_call_self (c : call) (st : State) :
  c <> CallConnect -> self (snd (run_call remote c st)) = self st.
Proof.
  intros Hc. destruct c; cbn [run_call].
  - reflexivity.
  - contradiction.
  - apply requestPost_self.
  - rewrite repositoriesPost_requestPost. apply requestPost_self.
  - rewrite subjectsPost_requestPost. apply requestPost_self.
Qed.

Lemma same_parameters_refl (s : aspaceRepo) : same_parameters s s.
Proof. unfold same_parameters. repeat split; reflexivity. Qed.

Lemma same_parameters_trans (a b c : aspaceRepo) :
  same_parameters a b -> same_parameters b c -> same_parameters a c.
Proof.
  unfold same_parameters.
  intros (H1 & H2 & H3 & H4 & H5) (K1 & K2 & K3 & K4 & K5).
  repeat split; congruence.
Qed.

Lemma connect_parameters (st : State) :
  same_parameters (self (snd (connect remote st))) (self st).
Proof.
  rewrite connect_run.
  pose proof (requestPost_self (login_path (self st))
                (login_payload (self st)) st) as Hself.
  destruct (requestPost remote _ _ st) as [[e | j] st']; cbn [snd] in Hself.
  - destruct e; cbn; rewrite ?Hself; apply same_parameters_refl.
  - destruct (getitem j "session"); cbn; rewrite <- Hself;
      unfold same_parameters; repeat split; reflexivity.
Qed.

Lemma run_call_parameters (c : call) (st : State) :
  same_parameters (self (snd (run_call remote c st))) (self st).
Proof.
  destruct c; try (rewrite run_call_self by discriminate;
                   apply same_parameters_refl).
  apply connect_parameters.
Qed.

Lemma run_calls_parameters (cs : list call) (st : State) :
  same_parameters (self (run_calls remote cs st)) (self st).
Proof.
  revert st. induction cs as [| c cs IH]; intros st; cbn [run_calls].
  - apply same_parameters_refl.
  - eapply same_parameters_trans; [apply IH | apply run_call_parameters].
Qed.

End Runs.

(** ** Properties of the methods *)

(** C8: [getHost] gives exactly protocol, ["://"], domain, [":"] and port
    put together, for whatever three strings the instance holds; it
    cannot raise, and it leaves the instance and the world (requests sent,
    records logged) as they were. *)
Theorem getHost_exact (st : State) :
  getHost st =
  (inr (protocol (self st) ++ "://" ++ domain (self st) ++ ":"
          ++ port (self st)),
   st).
Proof. reflexivity. Qed.

Section Properties.

Variable remote : list Request -> Request -> Outcome.

(** C5: every call of [requestPost] hands exactly one request to the
    transport, for the URL [getHost() + path].  With a session token set
    the request carries the payload as JSON text and the token in the
    [X-ArchivesSpace-Session] header; with the token unset the payload
    goes out as it was given and the headers hold no session entry. *)
Theorem requestPost_outgoing (path : string) (payload : pyval) (st : State) :
  sent (world (snd (requestPost remote path payload st))) =
  (sent (world st) ++
   [match sessionId (self st) with
    | PNone => mkRequest (host_string (self st) ++ path) payload (PStr "")
    | tok =>
        mkRequest (host_string (self st) ++ path)
          (PStr (Json.dumps payload))
          (PDict [("X-ArchivesSpace-Session", tok)])
    end])%list.
Proof. exact (requestPost_sent remote path payload st). Qed.

(** C3: when the service answers a [requestPost], a 200 makes the method
    return the decoded JSON body; any other status makes it log two
    records, a diagnostic for the status and then the response body, and
    return [None], with the instance unchanged, whatever the status was. *)
Theorem requestPost_status (path : string) (payload : pyval) (st : State)
    (r : Response) :
  remote (sent (world st)) (outgoing (self st) path payload) = Responded r ->
  (status_code r = 200%Z ->
   forall v, json r = Some v ->
     fst (requestPost remote path payload st) = inr v) /\
  (status_code r <> 200%Z ->
   requestPost remote path payload st =
   (inr PNone,
    mkState (self st)
      (logged (with_sent st (outgoing (self st) path payload))
         [diagnostic r; text r]))).
Proof.
  intros Hr. split.
  - intros H200 v Hv.
    rewrite (requestPost_200 remote path payload st r v Hr H200 Hv).
    reflexivity.
  - intros Hne. exact (requestPost_not_200 remote path payload st r Hr Hne).
Qed.

(** C4: when the transport cannot reach the host, [requestPost] raises the
    module's [ConnectionError] and returns no value; [repositoriesPost]
    and [subjectsPost] let it through to their caller; [connect] catches
    it, logs, returns [None] and leaves the instance as it was. *)
Theorem transport_failure (st : State) :
  (forall req, remote (sent (world st)) req = Failed RequestsConnectionError) ->
  (forall path payload,
     fst (requestPost remote path payload st) = inl ConnectionError) /\
  (forall repo_code name,
     fst (repositoriesPost remote repo_code name st) = inl ConnectionError) /\
  fst (subjectsPost remote st) = inl ConnectionError /\
  fst (connect remote st) = inr PNone /\
  self (snd (connect remote st)) = self st /\
  log (world (snd (connect remote st))) =
  (log (world st) ++
   ["Unable to connect to ArchivesSpace. Check the host information.";
    "Couldn't authenticate."])%list.
Proof.
  intros Hdown.
  assert (Hpost : forall path payload,
             requestPost remote path payload st =
             (inl ConnectionError,
              mkState (self st)
                (logged (with_sent st (outgoing (self st) path payload))
                   ["Unable to connect to ArchivesSpace. Check the host information."]))).
  { intros path payload. rewrite requestPost_run. cbv zeta.
    rewrite Hdown. reflexivity. }
  split; [| split; [| split]].
  - intros path payload. rewrite Hpost. reflexivity.
  - intros repo_code name. unfold repositoriesPost, bind.
    rewrite Hpost. reflexivity.
  - unfold subjectsPost, bind. rewrite Hpost. reflexivity.
  - rewrite connect_run, Hpost. cbn.
    rewrite <- app_assoc. repeat split; reflexivity.
Qed.

(** C2: [connect] posts to [getHost()] followed by ["/users/"], the
    username and ["/login"], with the password as payload.  When the
    answer is a 200 whose decoded body has a ['session'] entry, [connect]
    returns [None], the whole decoded body is the connection record, the
    session token is that entry, and nothing is logged. *)
Theorem connect_success (st : State) (r : Response) (j tok : pyval) :
  remote (sent (world st))
    (outgoing (self st) ("/users/" ++ username (self st) ++ "/login")
       (PDict [("password", PStr (password (self st)))]))
  = Responded r ->
  status_code r = 200%Z ->
  json r = Some j ->
  getitem j "session" = inr tok ->
  fst (connect remote st) = inr PNone /\
  connection (self (snd (connect remote st))) = Some j /\
  sessionId (self (snd (connect remote st))) = tok /\
  same_parameters (self (snd (connect remote st))) (self st) /\
  sent (world (snd (connect remote st))) =
  (sent (world st) ++
   [outgoing (self st) ("/users/" ++ username (self st) ++ "/login")
      (PDict [("password", PStr (password (self st)))])])%list /\
  log (world (snd (connect remote st))) = log (world st).
Proof.
  intros Hr H200 Hj Htok.
  rewrite connect_run, requestPost_run. cbv zeta.
  unfold login_path, login_payload. rewrite Hr, H200, Hj. cbn.
  rewrite Htok. cbn. unfold same_parameters. repeat split; reflexivity.
Qed.

(** C1 (the code departs from it): when the service answers the login
    with a status other than 200, [connect] logs the failure and stores
    [None] as the connection record, and subscripting that [None] raises
    a [TypeError] that reaches the caller; the session token keeps the
    value it had. *)
Theorem connect_refused (st : State) (r : Response) :
  remote (sent (world st))
    (outgoing (self st) (login_path (self st)) (login_payload (self st)))
  = Responded r ->
  status_code r <> 200%Z ->
  connect remote st =
  (inl TypeError,
   mkState (with_connection (self st) PNone)
     (logged
        (with_sent st
           (outgoing (self st) (login_path (self st)) (login_payload (self st))))
        [diagnostic r; text r])).
Proof.
  intros Hr Hne. rewrite connect_run, requestPost_run. cbv zeta. rewrite Hr.
  destruct (Z.eqb_spec (status_code r) 200); [contradiction|]. reflexivity.
Qed.

(** C6: [repositoriesPost] behaves as one [requestPost] to
    ["/repositories"] with the payload made of the model type, the code
    and the name: same result, same final state.  So it hands exactly one
    request to the transport, returns the decoded body on a 200, and
    [None] on a 400 or a 403. *)
Theorem repositoriesPost_spec (repo_code name : pyval) (st : State) :
  repositoriesPost remote repo_code name st =
  requestPost remote "/repositories"
    (PDict [("jsonmodel_type", PStr "repository");
            ("repo_code", repo_code); ("name", name)]) st /\
  (exists req,
      sent (world (snd (repositoriesPost remote repo_code name st))) =
      (sent (world st) ++ [req])%list /\
      url req = host_string (self st) ++ "/repositories" /\
      data req =
      (if is_not_None (sessionId (self st))
       then PStr (Json.dumps (repository_payload repo_code name))
       else repository_payload repo_code name)) /\
  (forall r,
      remote (sent (world st))
        (outgoing (self st) "/repositories"
           (repository_payload repo_code name)) = Responded r ->
      (status_code r = 200%Z -> forall v, json r = Some v ->
         fst (repositoriesPost remote repo_code name st) = inr v) /\
      (status_code r = 400%Z \/ status_code r = 403%Z ->
         fst (repositoriesPost remote repo_code name st) = inr PNone)).
Proof.
  pose proof (repositoriesPost_requestPost remote repo_code name st) as E.
  split; [exact E | split].
  - rewrite E, requestPost_sent. eexists. split; [reflexivity |].
    unfold outgoing. destruct (sessionId (self st)); split; reflexivity.
  - intros r Hr. rewrite E. split.
    + intros H200 v Hv.
      rewrite (requestPost_200 remote _ _ st r v Hr H200 Hv). reflexivity.
    + intros Hst. rewrite (requestPost_not_200 remote _ _ st r Hr).
      * reflexivity.
      * destruct Hst as [-> | ->]; discriminate.
Qed.

(** C7: [subjectsPost] has no parameter; it passes [requestPost] the JSON
    text of its fixed payload, not the payload.  With a session token set,
    [requestPost] serializes that text again, so the body sent is the JSON
    encoding of a string holding JSON, which is not the JSON text of the
    subject. *)
Theorem subjectsPost_double_serialization (st : State) :
  sessionId (self st) <> PNone ->
  subjectsPost remote st =
  requestPost remote "/subjects" (PStr (Json.dumps subject_data)) st /\
  sent (world (snd (subjectsPost remote st))) =
  (sent (world st) ++
   [mkRequest (host_string (self st) ++ "/subjects")
      (PStr (Json.dumps (PStr (Json.dumps subject_data))))
      (PDict [("X-ArchivesSpace-Session", sessionId (self st))])])%list /\
  Json.dumps (PStr (Json.dumps subject_data)) =
  Json.encode_str (Json.dumps subject_data) /\
  Json.dumps (PStr (Json.dumps subject_data)) <> Json.dumps subject_data.
Proof.
  intros Htok.
  pose proof (subjectsPost_requestPost remote st) as E.
  split; [exact E | split; [| split]].
  - rewrite E, requestPost_sent. unfold outgoing, session_header.
    destruct (sessionId (self st)); try reflexivity. contradiction.
  - reflexivity.
  - intros H. vm_compute in H. discriminate H.
Qed.

(** C9: whatever calls are made on an instance, in whatever order and
    whether or not they raise, its protocol, domain, port, username and
    password stay the values the constructor received. *)
Theorem connection_parameters_frame
    (p d q u pw : string) (w : World) (cs : list call) :
  protocol (self (run_calls remote cs (mkState (init p d q u pw) w))) = p /\
  domain (self (run_calls remote cs (mkState (init p d q u pw) w))) = d /\
  port (self (run_calls remote cs (mkState (init p d q u pw) w))) = q /\
  username (self (run_calls remote cs (mkState (init p d q u pw) w))) = u /\
  password (self (run_calls remote cs (mkState (init p d q u pw) w))) = pw.
Proof.
  exact (run_calls_parameters remote cs (mkState (init p d q u pw) w)).
Qed.

(** C10: the constructor sets the session token to [None] and creates no
    connection record, so reading the record of a new instance raises
    [AttributeError].  A call that finds the record missing and leaves it
    present is a [connect] whose request was answered by the service; and
    a [connect] whose request is answered creates the record, unless the
    answer is a 200 whose body does not decode.  A call that finds the
    token [None] and leaves it set is a [connect] answered with a 200. *)
Theorem connection_record_lifecycle :
  (forall p d q u pw,
      sessionId (init p d q u pw) = PNone /\
      connection (init p d q u pw) = None) /\
  (forall p d q u pw w,
      get_connection (mkState (init p d q u pw) w) =
      (inl (AttributeError "connection"), mkState (init p d q u pw) w)) /\
  (forall c st,
      connection (self st) = None ->
      connection (self (snd (run_call remote c st))) <> None ->
      c = CallConnect /\
      exists r,
        remote (sent (world st))
          (outgoing (self st) (login_path (self st)) (login_payload (self st)))
        = Responded r) /\
  (forall st r,
      remote (sent (world st))
        (outgoing (self st) (login_path (self st)) (login_payload (self st)))
      = Responded r ->
      status_code r <> 200%Z \/ json r <> None ->
      connection (self (snd (connect remote st))) <> None) /\
  (forall c st,
      sessionId (self st) = PNone ->
      sessionId (self (snd (run_call remote c st))) <> PNone ->
      c = CallConnect /\
      exists r,
        remote (sent (world st))
          (outgoing (self st) (login_path (self st)) (login_payload (self st)))
        = Responded r /\ status_code r = 200%Z).
Proof.
  split; [| split; [| split; [| split]]].
  - intros; split; reflexivity.
  - reflexivity.
  - intros c st Habsent Hpresent.
    assert (Hc : c = CallConnect).
    { destruct c; try reflexivity; exfalso; apply Hpresent;
        rewrite run_call_self by discriminate; exact Habsent. }
    subst c. split; [reflexivity|]. cbn [run_call] in Hpresent.
    rewrite connect_run, requestPost_run in Hpresent. cbv zeta in Hpresent.
    destruct (remote _ _) as [r | [ | name]].
    + exists r. reflexivity.
    + exfalso. apply Hpresent. exact Habsent.
    + exfalso. apply Hpresent. exact Habsent.
  - intros st r Hr Hcase.
    rewrite connect_run, requestPost_run. cbv zeta. rewrite Hr.
    destruct (Z.eqb_spec (status_code r) 200) as [E | E].
    + destruct Hcase as [Hne | Hjson]; [contradiction|].
      destruct (json r) as [j |]; [| contradiction].
      destruct (getitem j "session"); discriminate.
    + discriminate.
  - intros c st Hunset Hset.
    assert (Hc : c = CallConnect).
    { destruct c; try reflexivity; exfalso; apply Hset;
        rewrite run_call_self by discriminate; exact Hunset. }
    subst c. split; [reflexivity|]. cbn [run_call] in Hset.
    rewrite connect_run, requestPost_run in Hset. cbv zeta in Hset.
    destruct (remote _ _) as [r | [ | name]].
    + exists r. split; [reflexivity|].
      destruct (Z.eqb_spec (status_code r) 200) as [E | E]; [exact E|].
      exfalso. apply Hset. exact Hunset.
    + exfalso. apply Hset. exact Hunset.
    + exfalso. apply Hset. exact Hunset.
Qed.

End Properties.

(** ** The doctest's client against the three services *)

Lemma connect_success_witness :
  accepting_remote [] login_request = Responded login_ok /\
  status_code login_ok = 200%Z /\
  getitem login_body "session" = inr (PStr "abc123") /\
  sessionId (self (snd (connect accepting_remote fresh_client))) = PStr "abc123" /\
  connection_username (self (snd (connect accepting_remote fresh_client))) =
  inr (PStr "admin").
Proof.
  destruct (connect_success accepting_remote fresh_client login_ok login_body
              (PStr "abc123") eq_refl eq_refl eq_refl eq_refl)
    as (_ & Hrecord & Htoken & _).
  split; [reflexivity | split; [reflexivity | split; [reflexivity |]]].
  split.
  - exact Htoken.
  - unfold connection_username. rewrite Hrecord. reflexivity.
Defined.

Lemma connect_refused_witness :
  refusing_remote [] login_request = Responded forbidden /\
  status_code forbidden <> 200%Z /\
  connect refusing_remote fresh_client =
  (inl TypeError,
   mkState
     (mkRepo "http" "localhost" "8089" "admin" "admin" PNone (Some PNone))
     (mkWorld [login_request]
        ["Forbidden -- check your credentials."; Json.dumps forbidden_body])).
Proof.
  split; [reflexivity | split; [discriminate |]].
  apply (connect_refused refusing_remote fresh_client forbidden eq_refl).
  discriminate.
Defined.

Lemma requestPost_status_witness :
  refusing_remote [] login_request = Responded forbidden /\
  status_code forbidden <> 200%Z /\
  requestPost refusing_remote "/users/admin/login"
    (PDict [("password", PStr "admin")]) fresh_client =
  (inr PNone,
   mkState (self fresh_client)
     (mkWorld [login_request]
        ["Forbidden -- check your credentials."; Json.dumps forbidden_body])).
Proof.
  split; [reflexivity | split; [discriminate |]].
  apply (proj2 (requestPost_status refusing_remote "/users/admin/login"
                  (PDict [("password", PStr "admin")]) fresh_client forbidden
                  eq_refl)).
  discriminate.
Defined.

Lemma transport_failure_witness :
  (forall req, unreachable_remote [] req = Failed RequestsConnectionError) /\
  fst (requestPost unreachable_remote "/repositories" PNone fresh_client) =
  inl ConnectionError /\
  fst (connect unreachable_remote fresh_client) = inr PNone /\
  self (snd (connect unreachable_remote fresh_client)) = self fresh_client.
Proof.
  destruct (transport_failure unreachable_remote fresh_client
              (fun _ => eq_refl))
    as (Hpost & _ & _ & Hret & Hself & _).
  split; [intros req; reflexivity |].
  split; [apply Hpost |]. split; [exact Hret | exact Hself].
Defined.

Lemma subjectsPost_double_serialization_witness :
  sessionId (self logged_in_client) <> PNone /\
  sent (world (snd (subjectsPost accepting_remote logged_in_client))) =
  [mkRequest "http://localhost:8089/subjects"
     (PStr (Json.encode_str (Json.dumps subject_data)))
     (PDict [("X-ArchivesSpace-Session", PStr "abc123")])].
Proof.
  assert (Htok : sessionId (self logged_in_client) <> PNone) by discriminate.
  split; [exact Htok |].
  destruct (subjectsPost_double_serialization accepting_remote
              logged_in_client Htok) as (_ & Hsent & _).
  rewrite Hsent. reflexivity.
Defined.

(** ** Further properties: what [connect] lets through, and sequences of calls *)

Section Sequences.

Variable remote : list Request -> Request -> Outcome.

(** [connect] always hands exactly one request to the transport. *)
Lemma connect_sent (st : State) :
  sent (world (snd (connect remote st))) =
  (sent (world st) ++
   [outgoing (self st) (login_path (self st)) (login_payload (self st))])%list.
Proof.
  rewrite connect_run.
  pose proof (requestPost_sent remote (login_path (self st))
                (login_payload (self st)) st) as Hsent.
  destruct (requestPost remote _ _ st) as [[e | j] st']; cbn [snd] in Hsent.
  - destruct e; exact Hsent.
  - destruct (getitem j "session"); exact Hsent.
Qed.

(** The state after a login that the service accepts with a token. *)
Lemma connect_accepted (st : State) (r : Response) (j tok : pyval) :
  remote (sent (world st))
    (outgoing (self st) (login_path (self st)) (login_payload (self st)))
  = Responded r ->
  status_code r = 200%Z ->
  json r = Some j ->
  getitem j "session" = inr tok ->
  connect remote st =
  (inr PNone,
   mkState (with_session (self st) tok j)
     (with_sent st
        (outgoing (self st) (login_path (self st)) (login_payload (self st))))).
Proof.
  intros Hr H200 Hj Htok.
  rewrite connect_run, (requestPost_200 remote _ _ st r j Hr H200 Hj).
  rewrite Htok. reflexivity.
Qed.

(** A login that is not answered with a 200 leaves the token as it was. *)
Lemma connect_not_accepted_token (st : State) :
  (forall r,
      remote (sent (world st))
        (outgoing (self st) (login_path (self st)) (login_payload (self st)))
      = Responded r -> status_code r <> 200%Z) ->
  sessionId (self (snd (connect remote st))) = sessionId (self st).
Proof.
  intros Hno. rewrite connect_run, requestPost_run. cbv zeta.
  destruct (remote _ _) as [r | [ | name]] eqn:Hr; try reflexivity.
  destruct (Z.eqb_spec (status_code r) 200) as [E | E].
  - exfalso. exact (Hno r eq_refl E).
  - reflexivity.
Qed.

Lemma string_length_append (a b : string) :
  String.length (a ++ b) = String.length a + String.length b.
Proof. induction a as [| c a IH]; simpl; [reflexivity | now rewrite IH]. Qed.

Lemma escape_char_length (c : ascii) : 1 <= String.length (Json.escape_char c).
Proof.
  unfold Json.escape_char.
  repeat match goal with
         | |- context [if ?b then _ else _] => destruct b
         end; simpl; lia.
Qed.

Lemma escape_length (s : string) :
  String.length s <= String.length (Json.escape s).
Proof.
  induction s as [| c s IH]; simpl; [lia |].
  rewrite string_length_append. pose proof (escape_char_length c). lia.
Qed.

Lemma encode_str_length (s : string) :
  String.length s + 2 <= String.length (Json.encode_str s).
Proof.
  unfold Json.encode_str. simpl. rewrite string_length_append. simpl.
  pose proof (escape_length s). lia.
Qed.

(** X1: a login answered with a 200 whose decoded body cannot give a
    ['session'] entry (a dict without the key, or a value that is not a
    dict) makes [connect] raise the [KeyError] or [TypeError] of the
    subscript, after it has stored the body as the connection record; the
    token is unchanged and nothing is logged. *)
Theorem connect_body_without_session (st : State) (r : Response)
    (j : pyval) (e : exn) :
  remote (sent (world st))
    (outgoing (self st) (login_path (self st)) (login_payload (self st)))
  = Responded r ->
  status_code r = 200%Z ->
  json r = Some j ->
  getitem j "session" = inl e ->
  connect remote st =
  (inl e,
   mkState (with_connection (self st) j)
     (with_sent st
        (outgoing (self st) (login_path (self st)) (login_payload (self st)))))
  /\ (e = KeyError "session" \/ e = TypeError).
Proof.
  intros Hr H200 Hj Hget. split.
  - rewrite connect_run, (requestPost_200 remote _ _ st r j Hr H200 Hj).
    rewrite Hget. reflexivity.
  - unfold getitem in Hget. destruct j; try (right; congruence).
    destruct (dict_get d "session"); [discriminate | left; congruence].
Qed.

(** X2: an exception of the transport other than its connection error (a
    timeout, an invalid URL) is neither logged nor converted by
    [requestPost], and [connect] does not catch it: both raise it as it
    is, with the instance unchanged. *)
Theorem other_transport_exception (st : State) (name : string) :
  (forall req, remote (sent (world st)) req = Failed (RequestsOther name)) ->
  (forall path payload,
      requestPost remote path payload st =
      (inl (RequestException (RequestsOther name)),
       mkState (self st) (with_sent st (outgoing (self st) path payload)))) /\
  connect remote st =
  (inl (RequestException (RequestsOther name)),
   mkState (self st)
     (with_sent st
        (outgoing (self st) (login_path (self st)) (login_payload (self st))))).
Proof.
  intros Hraise.
  assert (Hpost : forall path payload,
             requestPost remote path payload st =
             (inl (RequestException (RequestsOther name)),
              mkState (self st)
                (with_sent st (outgoing (self st) path payload)))).
  { intros path payload. rewrite requestPost_run. cbv zeta.
    rewrite Hraise. reflexivity. }
  split; [exact Hpost |]. rewrite connect_run, Hpost. reflexivity.
Qed.

(** X3: when the service answers 200 with a body that does not decode,
    [requestPost] raises the decoding error without logging, and
    [connect] lets it through: no connection record is stored and the
    token is unchanged. *)
Theorem undecodable_success_body (st : State) (r : Response) :
  (forall req, remote (sent (world st)) req = Responded r) ->
  status_code r = 200%Z ->
  json r = None ->
  (forall path payload,
      requestPost remote path payload st =
      (inl JSONDecodeError,
       mkState (self st) (with_sent st (outgoing (self st) path payload)))) /\
  connect remote st =
  (inl JSONDecodeError,
   mkState (self st)
     (with_sent st
        (outgoing (self st) (login_path (self st)) (login_payload (self st))))).
Proof.
  intros Hr H200 Hj.
  assert (Hpost : forall path payload,
             requestPost remote path payload st =
             (inl JSONDecodeError,
              mkState (self st)
                (with_sent st (outgoing (self st) path payload)))).
  { intros path payload. rewrite requestPost_run. cbv zeta.
    rewrite Hr, H200, Hj. reflexivity. }
  split; [exact Hpost |]. rewrite connect_run, Hpost. reflexivity.
Qed.

(** X4: after a login accepted with a token that is not [None], the next
    [requestPost] carries that token in the session header and its payload
    as JSON text; so does a second [connect], whose password goes out as
    JSON text under the first login's token. *)
Theorem requests_after_login (st : State) (r : Response) (j tok : pyval)
    (path : string) (payload : pyval) :
  remote (sent (world st))
    (outgoing (self st) (login_path (self st)) (login_payload (self st)))
  = Responded r ->
  status_code r = 200%Z ->
  json r = Some j ->
  getitem j "session" = inr tok ->
  tok <> PNone ->
  sent (world (snd (requestPost remote path payload (snd (connect remote st)))))
  = (sent (world st) ++
     [outgoing (self st) (login_path (self st)) (login_payload (self st));
      mkRequest (host_string (self st) ++ path) (PStr (Json.dumps payload))
        (PDict [("X-ArchivesSpace-Session", tok)])])%list /\
  sent (world (snd (connect remote (snd (connect remote st)))))
  = (sent (world st) ++
     [outgoing (self st) (login_path (self st)) (login_payload (self st));
      mkRequest (host_string (self st) ++ "/users/" ++ username (self st)
                   ++ "/login")
        (PStr (Json.dumps (PDict [("password", PStr (password (self st)))])))
        (PDict [("X-ArchivesSpace-Session", tok)])])%list.
Proof.
  intros Hr H200 Hj Htok Hset.
  rewrite (connect_accepted st r j tok Hr H200 Hj Htok). cbn [snd]. split.
  - rewrite requestPost_sent. cbn [self world sent with_sent].
    rewrite <- app_assoc. cbn [app]. f_equal. f_equal. f_equal.
    unfold outgoing, with_session, session_header; cbn.
    destruct tok; try reflexivity. contradiction.
  - rewrite connect_sent. cbn [self world sent with_sent].
    rewrite <- app_assoc. cbn [app]. f_equal. f_equal. f_equal.
    unfold outgoing, with_session, session_header, login_path, login_payload;
      cbn.
    destruct tok; try reflexivity. contradiction.
Qed.

(** X5: when a client without a token makes a login that is not answered
    with a 200 (the host cannot be reached, the transport raises, or the
    status is another one), the next [requestPost] still goes out: with
    its payload as given and no session header. *)
Theorem request_after_failed_login (st : State) (path : string)
    (payload : pyval) :
  sessionId (self st) = PNone ->
  (forall r,
      remote (sent (world st))
        (outgoing (self st) (login_path (self st)) (login_payload (self st)))
      = Responded r -> status_code r <> 200%Z) ->
  sent (world (snd (requestPost remote path payload (snd (connect remote st)))))
  = (sent (world st) ++
     [mkRequest (host_string (self st) ++ "/users/" ++ username (self st)
                   ++ "/login")
        (PDict [("password", PStr (password (self st)))]) (PStr "");
      mkRequest (host_string (self st) ++ path) payload (PStr "")])%list.
Proof.
  intros Hnone Hno.
  rewrite requestPost_sent, connect_sent, <- app_assoc. cbn [app].
  pose proof (connect_not_accepted_token st Hno) as Htok.
  destruct (connect_parameters remote st) as (Hp & Hd & Hq & _).
  f_equal. unfold outgoing at 1 2. rewrite Htok, Hnone.
  unfold host_string, login_path, login_payload. rewrite Hp, Hd, Hq.
  reflexivity.
Qed.

(** X6: each call other than [getHost] hands exactly one request to the
    transport, whatever the answer, and none is ever removed: after any
    calls the trace is the earlier trace followed by one request per such
    call.  Nothing is retried. *)
Theorem run_calls_one_request_each (cs : list call) (st : State) :
  exists made,
    sent (world (run_calls remote cs st)) = (sent (world st) ++ made)%list /\
    List.length made = List.length (filter makes_request cs).
Proof.
  revert st. induction cs as [| c cs IH]; intros st; cbn [run_calls].
  - exists []. split; [now rewrite app_nil_r | reflexivity].
  - destruct (IH (snd (run_call remote c st))) as (made & Hsent & Hlen).
    assert (Hone : exists one,
               sent (world (snd (run_call remote c st))) =
               (sent (world st) ++ one)%list /\
               List.length one = List.length (filter makes_request [c])).
    { destruct c; cbn [run_call filter makes_request].
      - exists []. split; [now rewrite app_nil_r | reflexivity].
      - eexists. split; [apply connect_sent | reflexivity].
      - eexists. split; [apply requestPost_sent | reflexivity].
      - rewrite repositoriesPost_requestPost.
        eexists. split; [apply requestPost_sent | reflexivity].
      - rewrite subjectsPost_requestPost.
        eexists. split; [apply requestPost_sent | reflexivity]. }
    destruct Hone as (one & Hone & Hlen1).
    exists (one ++ made)%list. split.
    + rewrite Hsent, Hone, app_assoc. reflexivity.
    + rewrite length_app, Hlen, Hlen1. cbn [filter].
      destruct (makes_request c); reflexivity.
Qed.

(** X7: calls other than [connect] never assign an attribute: after any
    sequence of them, failing or not, the session token and the connection
    record are what they were.  A token is never dropped or renewed by
    use. *)
Theorem calls_without_connect_keep_instance (cs : list call) (st : State) :
  Forall (fun c => c <> CallConnect) cs ->
  self (run_calls remote cs st) = self st.
Proof.
  intros Hcs. revert st.
  induction Hcs as [| c cs Hc _ IH]; intros st; cbn [run_calls].
  - reflexivity.
  - rewrite IH. apply run_call_self. exact Hc.
Qed.

(** X8: with a token set, [requestPost] never sends a string payload as
    it is: the body is that string quoted and escaped, at least two
    characters longer.  A caller cannot hand it JSON text made in
    advance. *)
Theorem authenticated_string_payload (st : State) (path s : string) :
  sessionId (self st) <> PNone ->
  sent (world (snd (requestPost remote path (PStr s) st))) =
  (sent (world st) ++
   [mkRequest (host_string (self st) ++ path) (PStr (Json.encode_str s))
      (PDict [("X-ArchivesSpace-Session", sessionId (self st))])])%list /\
  String.length s + 2 <= String.length (Json.encode_str s) /\
  Json.encode_str s <> s.
Proof.
  intros Hset. split; [| split].
  - rewrite requestPost_sent. unfold outgoing, session_header.
    destruct (sessionId (self st)); try reflexivity. contradiction.
  - apply encode_str_length.
  - intros Heq. pose proof (encode_str_length s) as Hlen.
    rewrite Heq in Hlen. lia.
Qed.

(** X9: the documented use, [connect()] and then reading
    [connection['user']['username']], on an instance that has no
    connection record and whose host cannot be reached: [connect] returns
    normally, and it is the read of [connection] that raises
    [AttributeError]. *)
Theorem class_doctest_unreachable (st : State) :
  connection (self st) = None ->
  (forall req, remote (sent (world st)) req = Failed RequestsConnectionError) ->
  fst (connect remote st) = inr PNone /\
  fst (class_doctest remote st) = inl (AttributeError "connection").
Proof.
  intros Habsent Hdown.
  assert (Hconnect : connect remote st =
            (inr PNone,
             mkState (self st)
               (logged
                  (logged
                     (with_sent st
                        (outgoing (self st) (login_path (self st))
                           (login_payload (self st))))
                     ["Unable to connect to ArchivesSpace. Check the host information."])
                  ["Couldn't authenticate."]))).
  { rewrite connect_run, requestPost_run. cbv zeta. rewrite Hdown.
    reflexivity. }
  split; [now rewrite Hconnect |].
  unfold class_doctest, bind at 1. rewrite Hconnect.
  unfold bind, get_connection. cbn [self]. rewrite Habsent. reflexivity.
Qed.

(** X10: the documented use of [repositoriesPost], subscripting its
    result with ['uri'], raises [TypeError] whenever the service answers
    with a status other than 200 (a code already taken, a session no
    longer valid), since the result is then [None]. *)
Theorem repositories_doctest_refused (repo_code name : pyval) (st : State)
    (r : Response) :
  remote (sent (world st))
    (outgoing (self st) "/repositories" (repository_payload repo_code name))
  = Responded r ->
  status_code r <> 200%Z ->
  fst (repositoriesPost remote repo_code name st) = inr PNone /\
  fst (repositories_doctest remote repo_code name st) = inl TypeError.
Proof.
  intros Hr Hne.
  pose proof (requestPost_not_200 remote "/repositories"
                (repository_payload repo_code name) st r Hr Hne) as Hpost.
  rewrite <- repositoriesPost_requestPost in Hpost.
  split; [now rewrite Hpost |].
  unfold repositories_doctest, bind. rewrite Hpost. reflexivity.
Qed.

End Sequences.

(** ** The doctest's client against the further services *)

Lemma connect_body_without_session_witness :
  status_code sessionless = 200%Z /\
  getitem sessionless_body "session" = inl (KeyError "session") /\
  connect sessionless_remote fresh_client =
  (inl (KeyError "session"),
   mkState
     (mkRepo "http" "localhost" "8089" "admin" "admin" PNone
        (Some sessionless_body))
     (mkWorld [login_request] [])).
Proof.
  split; [reflexivity | split; [reflexivity |]].
  exact (proj1 (connect_body_without_session sessionless_remote fresh_client
                  sessionless sessionless_body (KeyError "session")
                  eq_refl eq_refl eq_refl eq_refl)).
Defined.

Lemma other_transport_exception_witness :
  (forall req, timing_out_remote [] req = Failed (RequestsOther "Timeout")) /\
  connect timing_out_remote fresh_client =
  (inl (RequestException (RequestsOther "Timeout")),
   mkState (self fresh_client) (mkWorld [login_request] [])).
Proof.
  split; [intros req; reflexivity |].
  exact (proj2 (other_transport_exception timing_out_remote fresh_client
                  "Timeout" (fun _ => eq_refl))).
Defined.

Lemma undecodable_success_body_witness :
  (forall req, undecodable_remote [] req = Responded undecodable) /\
  status_code undecodable = 200%Z /\
  json undecodable = None /\
  connect undecodable_remote fresh_client =
  (inl JSONDecodeError,
   mkState (self fresh_client) (mkWorld [login_request] [])).
Proof.
  split; [intros req; reflexivity | split; [reflexivity | split; [reflexivity |]]].
  exact (proj2 (undecodable_success_body undecodable_remote fresh_client
                  undecodable (fun _ => eq_refl) eq_refl eq_refl)).
Defined.

Lemma requests_after_login_witness :
  status_code login_ok = 200%Z /\
  getitem login_body "session" = inr (PStr "abc123") /\
  PStr "abc123" <> PNone /\
  sent (world (snd (requestPost accepting_remote "/repositories"
                      (PList [])
                      (snd (connect accepting_remote fresh_client))))) =
  [login_request;
   mkRequest "http://localhost:8089/repositories" (PStr "[]")
     (PDict [("X-ArchivesSpace-Session", PStr "abc123")])].
Proof.
  assert (Hset : PStr "abc123" <> PNone) by discriminate.
  split; [reflexivity | split; [reflexivity | split; [exact Hset |]]].
  exact (proj1 (requests_after_login accepting_remote fresh_client login_ok
                  login_body (PStr "abc123") "/repositories" (PList [])
                  eq_refl eq_refl eq_refl eq_refl Hset)).
Defined.

Lemma request_after_failed_login_witness :
  sessionId (self fresh_client) = PNone /\
  status_code forbidden <> 200%Z /\
  sent (world (snd (requestPost refusing_remote "/repositories"
                      (repository_payload (PStr "FOO1") (PStr "Test Repo"))
                      (snd (connect refusing_remote fresh_client))))) =
  [login_request;
   mkRequest "http://localhost:8089/repositories"
     (repository_payload (PStr "FOO1") (PStr "Test Repo")) (PStr "")].
Proof.
  assert (Hno : forall r,
             refusing_remote (sent (world fresh_client))
               (outgoing (self fresh_client) (login_path (self fresh_client))
                  (login_payload (self fresh_client))) = Responded r ->
             status_code r <> 200%Z).
  { intros r Hr. injection Hr as <-. discriminate. }
  split; [reflexivity | split; [discriminate |]].
  exact (request_after_failed_login refusing_remote fresh_client
           "/repositories"
           (repository_payload (PStr "FOO1") (PStr "Test Repo"))
           eq_refl Hno).
Defined.

Lemma calls_without_connect_keep_instance_witness :
  Forall (fun c => c <> CallConnect)
    [CallGetHost; CallSubjectsPost;
     CallRepositoriesPost (PStr "FOO1") (PStr "Test Repo")] /\
  self (run_calls refusing_remote
          [CallGetHost; CallSubjectsPost;
           CallRepositoriesPost (PStr "FOO1") (PStr "Test Repo")]
          logged_in_client) = self logged_in_client.
Proof.
  assert (Hcs : Forall (fun c => c <> CallConnect)
                  [CallGetHost; CallSubjectsPost;
                   CallRepositoriesPost (PStr "FOO1") (PStr "Test Repo")]).
  { repeat constructor; discriminate. }
  split; [exact Hcs |].
  exact (calls_without_connect_keep_instance refusing_remote _
           logged_in_client Hcs).
Defined.

Lemma authenticated_string_payload_witness :
  sessionId (self logged_in_client) <> PNone /\
  sent (world (snd (requestPost accepting_remote "/subjects" (PStr "{}")
                      logged_in_client))) =
  [mkRequest "http://localhost:8089/subjects"
     (PStr (String Json.dquote ("{}" ++ String Json.dquote "")))
     (PDict [("X-ArchivesSpace-Session", PStr "abc123")])].
Proof.
  assert (Hset : sessionId (self logged_in_client) <> PNone) by discriminate.
  split; [exact Hset |].
  exact (proj1 (authenticated_string_payload accepting_remote
                  logged_in_client "/subjects" "{}" Hset)).
Defined.

Lemma class_doctest_unreachable_witness :
  connection (self fresh_client) = None /\
  (forall req, unreachable_remote [] req = Failed RequestsConnectionError) /\
  fst (class_doctest unreachable_remote fresh_client) =
  inl (AttributeError "connection").
Proof.
  split; [reflexivity | split; [intros req; reflexivity |]].
  exact (proj2 (class_doctest_unreachable unreachable_remote fresh_client
                  eq_refl (fun _ => eq_refl))).
Defined.

Lemma repositories_doctest_refused_witness :
  status_code forbidden <> 200%Z /\
  fst (repositories_doctest refusing_remote (PStr "FOOBAR5")
         (PStr "Test repository made by aspy") logged_in_client) =
  inl TypeError.
Proof.
  assert (Hne : status_code forbidden <> 200%Z) by discriminate.
  split; [exact Hne |].
  exact (proj2 (repositories_doctest_refused refusing_remote (PStr "FOOBAR5")
                  (PStr "Test repository made by aspy") logged_in_client
                  forbidden eq_refl Hne)).
Defined.
